(** * ufmt: configuration lookup and the per-file formatting pipeline

    A shallow embedding of [ufmt/config.py] and [ufmt/core.py].

    The two modules are glue around libraries (trailrunner, tomlkit, black,
    usort, moreorless) and the operating system.  Each library is an
    interface (a type class) whose operations the embedding calls where the
    source calls them; the file system and the log are an explicit world
    threaded through a state-and-exception monad. *)

From Stdlib Require Structures.OrdersEx.
From stdpp Require Import gmap strings list fin_maps sorting.

Set Warnings "-register-all".
Set Default Proof Using "Type".

(** ** Python values

    The values that reach the code: what a TOML document holds (tomlkit's
    items subclass the builtin types they wrap, and the class tests of the
    source look at those bases only) and the tuples and sets the code builds
    itself.  A float is kept as its IEEE-754 double bit pattern, a date or
    time as its ISO text.  Strings are sequences of 8-bit characters. *)

Inductive value : Type :=
  | VBool (b : bool)
  | VInt (z : Z)
  | VFloat (bits : Z)
  | VStr (s : string)
  | VDateTime (iso : string)
  | VList (l : list value)
  | VTuple (l : list value)
  | VSet (l : list value)       (* the set of the members of [l] *)
  | VDict (d : gmap string value).

(** [bool(v)], the truth value [not v] negates. *)
Definition truthy (v : value) : bool :=
  match v with
  | VBool b => b
  | VInt z => negb (z =? 0)%Z
  | VFloat bits => negb (Z.land bits (2 ^ 63 - 1) =? 0)%Z
  | VStr s => negb (String.eqb s EmptyString)
  | VDateTime _ => true
  | VList l | VTuple l | VSet l => negb (bool_decide (l = []))
  | VDict d => negb (bool_decide (d = ∅))
  end.

(** [isinstance(v, bool)], [isinstance(v, str)], [isinstance(v, dict)] and
    [isinstance(v, collections.abc.Sequence)]. *)
Definition is_bool (v : value) : bool :=
  match v with VBool _ => true | _ => false end.

Definition is_str (v : value) : bool :=
  match v with VStr _ => true | _ => false end.

Definition is_dict (v : value) : bool :=
  match v with VDict _ => true | _ => false end.

Definition is_Sequence (v : value) : bool :=
  match v with VStr _ | VList _ | VTuple _ => true | _ => false end.

Fixpoint hashable (v : value) : bool :=
  match v with
  | VList _ | VSet _ | VDict _ => false
  | VTuple l => forallb hashable l
  | _ => true
  end.

(** ** Exceptions and results *)

Definition Path := list string.      (* resolved: components below "/" *)
Definition bytes := list Byte.byte.

Inductive exn : Type :=
  | NothingChanged
  | ValueError (msg : string)
  | TypeError (msg : string)
  | AttributeError (msg : string)
  | FileNotFoundError (p : Path)
  | Raised (name : string).          (* any other exception of a library *)

Inductive outcome (A : Type) : Type :=
  | Return (a : A)
  | Raise (e : exn).
Arguments Return {A} a.
Arguments Raise {A} e.

#[global] Instance outcome_ret : MRet outcome := @Return.
#[global] Instance outcome_bind : MBind outcome := λ A B f m,
  match m with Return a => f a | Raise e => Raise e end.

(** ** The world: files, working directory, log

    A [logging] record keeps the format string and its arguments apart, as
    Python's does. *)

Inductive log_arg : Type :=
  | ArgPath (p : Path)
  | ArgNames (names : list string).

Inductive level : Type := DEBUG | WARNING.

Record LogRecord : Type := mkLog {
  levelname : level;
  msg : string;
  args : list log_arg;
}.

Record World : Type := mkWorld {
  files : gmap Path bytes;
  cwd : Path;
  log : list LogRecord;
}.

Definition Py (A : Type) : Type := World → outcome A * World.

#[global] Instance Py_ret : MRet Py := λ A a w, (Return a, w).
#[global] Instance Py_bind : MBind Py := λ A B f m w,
  match m w with
  | (Return a, w') => f a w'
  | (Raise e, w') => (Raise e, w')
  end.

Definition lift {A} (o : outcome A) : Py A := λ w, (o, w).
Definition raise {A} (e : exn) : Py A := lift (Raise e).
Definition gets {A} (f : World → A) : Py A := λ w, (Return (f w), w).
Definition set_files (fs : gmap Path bytes) : Py unit :=
  λ w, (Return (), mkWorld fs (cwd w) (log w)).
Definition emit (r : LogRecord) : Py unit :=
  λ w, (Return (), mkWorld (files w) (cwd w) (log w ++ [r])).

Definition LOG_warning (fmt : string) (a : list log_arg) : Py unit :=
  emit (mkLog WARNING fmt a).
Definition LOG_debug (text : string) : Py unit :=
  emit (mkLog DEBUG text []).

(** ** pathlib *)

Definition truediv (p : Path) (name : string) : Path := p ++ [name].

Definition path_str (p : Path) : string :=
  match p with
  | [] => "/"
  | _ => foldr (λ c acc, "/" +:+ c +:+ acc) EmptyString p
  end.

Definition as_posix (p : Path) : string := path_str p.

Definition Path_cwd : Py Path := gets cwd.

Definition is_file (p : Path) : Py bool :=
  gets (λ w, bool_decide (is_Some (files w !! p))).

(** [open(path, "rb").read()] *)
Definition read_bytes (p : Path) : Py bytes :=
  fs ← gets files;
  match fs !! p with
  | Some b => mret b
  | None => raise (FileNotFoundError p)
  end.

(** ** Builtins: [str], [sorted], [set], [dict.get] *)

Definition str_le (a b : string) : Prop := String.leb a b = true.
#[global] Instance str_le_dec : RelDecision str_le :=
  λ a b, decide (String.leb a b = true).

Definition sorted (l : list string) : list string := merge_sort str_le l.

Definition keys (d : gmap string value) : list string := (map_to_list d).*1.

Definition chars (s : string) : list value :=
  (λ c, VStr (String c EmptyString)) <$> String.list_ascii_of_string s.

Definition iter (v : value) : outcome (list value) :=
  match v with
  | VList l | VTuple l | VSet l => Return l
  | VStr s => Return (chars s)
  | VDict d => Return (VStr <$> keys d)
  | _ => Raise (TypeError "object is not iterable")
  end.

Definition py_set (v : value) : outcome value :=
  l ← iter v;
  if forallb hashable l then Return (VSet l)
  else Raise (TypeError "unhashable type").

(** [obj.get(key, default)]: only a mapping has the method. *)
Definition py_get (obj : value) (key : string) (dflt : value) : outcome value :=
  match obj with
  | VDict d => Return (default dflt (d !! key))
  | _ => Raise (AttributeError "object has no attribute 'get'")
  end.

(** [d.pop(key, default)] gives the value; the mapping that is left is
    [delete key d]. *)
Definition pop (key : string) (dflt : value) (d : gmap string value) : value :=
  default dflt (d !! key).

(** ** The libraries the two modules import *)

Class Builtins : Type := {
  (* [str(x)] for an object that is not a string *)
  object_str : value → string;
  (* [bytes.decode] with the locale's encoding, as [Path.read_text] does *)
  locale_decode : bytes → outcome string;
  (* the text layer of [open(..., "w", encoding=, newline=)] *)
  text_encode : string → string → string → outcome bytes;
}.

Class Trailrunner : Type := {
  project_root : gmap Path bytes → Path → Path;
}.

Class Tomlkit : Type := {
  tomlkit_loads : string → outcome (gmap string value);
}.

Class Black (Mode : Type) : Type := {
  decode_bytes : bytes → outcome (string * string * string);
  format_file_contents : string → bool → Mode → outcome string;
  find_pyproject_toml : gmap Path bytes → list string → option string;
  parse_pyproject_toml : gmap Path bytes → string → outcome (gmap string value);
  Mode_fields : list string;                  (* [Mode.__dataclass_fields__] *)
  Mode_new : gmap string value → Mode;        (* the constructor, by keyword *)
}.

Class Usort (UsortConfig : Type) : Type := {
  UsortConfig_find : gmap Path bytes → Path → outcome UsortConfig;
  usort_string : string → UsortConfig → Path → outcome string;
}.

Class Moreorless : Type := {
  unified_diff : string → string → string → string;
}.

Definition str `{Builtins} (v : value) : string :=
  match v with
  | VStr s => s
  | _ => object_str v
  end.

(** [Path.read_text()] *)
Definition read_text `{Builtins} (p : Path) : Py string :=
  b ← read_bytes p;
  lift (locale_decode b).

(** [with open(path, "w", encoding=, newline=) as f: f.write(text)]:
    opening truncates the file, then the text is encoded and written. *)
Definition write_text `{Builtins} (p : Path) (encoding newline text : string)
    : Py unit :=
  fs ← gets files;
  set_files (<[p := []]> fs);;
  b ← lift (text_encode encoding newline text);
  set_files (<[p := b]> fs).

(** ** ufmt/config.py *)

Module UfmtConfig.
Record t : Type := mk {
  project_root : option Path;
  pyproject_path : option Path;
  excludes : list string;
}.
End UfmtConfig.

(** Line 27: the value under [tool], then under [ufmt], each with the empty
    mapping as default. *)
Definition tool_ufmt (pyproject : gmap string value) : outcome value :=
  tool ← py_get (VDict pyproject) "tool" (VDict ∅);
  py_get tool "ufmt" (VDict ∅).

Section config.
Context `{Builtins, Trailrunner, Tomlkit}.

Definition ufmt_config (path : option Path) : Py UfmtConfig.t :=
  here ← Path_cwd;
  let path := default here path in
  fs ← gets files;
  let root := project_root fs path in
  let config_path := truediv root "pyproject.toml" in
  found ← is_file config_path;
  if found : bool then
    text ← read_text config_path;
    pyproject ← lift (tomlkit_loads text);
    config ← lift (tool_ufmt pyproject);
    config ← match config with
             | VDict d => mret d
             | _ =>
                 LOG_warning "%s: tool.ufmt is not a mapping, ignoring"
                   [ArgPath config_path];;
                 mret ∅
             end;
    let config_excludes := pop "excludes" (VList []) config in
    let config := delete "excludes" config in
    excludes ←
      (if is_Sequence config_excludes && negb (is_str config_excludes) then
         l ← lift (iter config_excludes);
         mret (str <$> l)
       else
         raise (ValueError
                  (path_str config_path +:+ ": excludes must be a list of strings")));
    (if bool_decide (config ≠ ∅) then
       LOG_warning "%s: unknown values ignored: %r"
         [ArgPath config_path; ArgNames (sorted (keys config))]
     else mret ());;
    mret (UfmtConfig.mk (Some root) (Some config_path) excludes)
  else
    mret (UfmtConfig.mk None None []).
End config.

(** ** ufmt/core.py *)

Module Result.
Record t : Type := mk {
  path : Path;
  changed : bool;
  written : bool;
  diff : option string;
}.
End Result.

Section core.
Context {Mode UsortConfig : Type}.
Context `{Builtins, Black Mode, Usort UsortConfig, Moreorless}.

(** [Mode()] *)
Definition Mode_default : Mode := Mode_new ∅.

(** An instance of the [Mode] dataclass is always true, so
    [black_config or Mode()] is [black_config] unless that is [None]. *)
Definition ufmt_string (path : Path) (content : string)
    (usort_config : UsortConfig) (black_config : option Mode)
    : outcome string :=
  content ← usort_string content usort_config path;
  match format_file_contents content false
          (default Mode_default black_config) with
  | Return formatted => Return formatted
  | Raise NothingChanged => Return content
  | Raise e => Raise e
  end.

(** Lines 63 to 75 of [_make_black_config]: the keyword mapping built from
    the parsed configuration, as it is handed to the [Mode] constructor. *)
Definition black_kwargs (config : gmap string value)
    : outcome (gmap string value) :=
  target_versions ← py_set (pop "target_version" (VList []) config);
  let config :=
    <["target_versions" := target_versions]> (delete "target_version" config) in
  let flag :=
    VTuple [VBool (negb (truthy
              (pop "skip_string_normalization" (VBool false) config)))] in
  let config :=
    <["string_normalization" := flag]>
      (delete "skip_string_normalization" config) in
  let flag :=
    VTuple [VBool (negb (truthy
              (pop "skip_magic_trailing_comma" (VBool false) config)))] in
  let config :=
    <["magic_trailing_comma" := flag]>
      (delete "skip_magic_trailing_comma" config) in
  let names := Mode_fields in
  Return (filter (λ item, item.1 ∈ names) config).

Definition _make_black_config (path : Path) : Py Mode :=
  fs ← gets files;
  match find_pyproject_toml fs [path_str path] with
  | None | Some EmptyString => mret Mode_default
  | Some config_file =>
      config ← lift (parse_pyproject_toml fs config_file);
      kwargs ← lift (black_kwargs config);
      mret (Mode_new kwargs)
  end.

Definition ufmt_file (path : Path) (dry_run diff : bool) : Py Result.t :=
  fs ← gets files;
  usort_config ← lift (UsortConfig_find fs path);
  black_config ← _make_black_config path;
  LOG_debug ("Checking " +:+ path_str path);;
  buf ← read_bytes path;
  '(src_contents, encoding, newline) ← lift (decode_bytes buf);
  dst_contents ←
    lift (ufmt_string path src_contents usort_config (Some black_config));
  let result := Result.mk path false false None in
  if bool_decide (src_contents ≠ dst_contents) then
    let result :=
      Result.mk (Result.path result) true
                (Result.written result) (Result.diff result) in
    let result :=
      if diff then
        Result.mk (Result.path result) (Result.changed result)
                  (Result.written result)
                  (Some (unified_diff src_contents dst_contents (as_posix path)))
      else result in
    if negb dry_run then
      LOG_debug ("Formatted " +:+ path_str path);;
      write_text path encoding newline dst_contents;;
      mret (Result.mk (Result.path result) (Result.changed result)
                      true (Result.diff result))
    else mret result
  else mret result.
End core.

(** The mapping before the filter: the three patched keys replace the
    three source keys. *)
Definition patched (target_versions : value) (config : gmap string value)
    : gmap string value :=
  let c1 :=
    <["target_versions" := target_versions]> (delete "target_version" config) in
  let c2 :=
    <["string_normalization" :=
        VTuple [VBool (negb (truthy
                  (pop "skip_string_normalization" (VBool false) c1)))]]>
      (delete "skip_string_normalization" c1) in
  <["magic_trailing_comma" :=
      VTuple [VBool (negb (truthy
                (pop "skip_magic_trailing_comma" (VBool false) c2)))]]>
    (delete "skip_magic_trailing_comma" c2).

(** The world [ufmt_file] leaves behind: after the check alone, and after
    the file has been opened for writing and given the content [b]. *)
Definition checking (path : Path) (w : World) : World :=
  mkWorld (files w) (cwd w)
          (log w ++ [mkLog DEBUG ("Checking " +:+ path_str path) []]).

Definition formatted (path : Path) (b : bytes) (w : World) : World :=
  mkWorld (<[path := b]> (files w)) (cwd w)
          (log w ++ [mkLog DEBUG ("Checking " +:+ path_str path) [];
                     mkLog DEBUG ("Formatted " +:+ path_str path) []]).

(** ** Stand-ins for the libraries

    Small executable collaborators, used to run the two modules on concrete
    inputs.  The theorems below hold for every implementation of the
    interfaces; these only serve where an input has to be exhibited. *)

Module Demo.
Definition LF : Ascii.ascii := Ascii.ascii_of_nat 10.
Definition CR : Ascii.ascii := Ascii.ascii_of_nat 13.
Definition QUOTE : Ascii.ascii := Ascii.ascii_of_nat 39.
Definition DQUOTE : Ascii.ascii := Ascii.ascii_of_nat 34.

Definition encode (s : string) : bytes := String.list_byte_of_string s.
Definition decode (b : bytes) : string := String.string_of_list_byte b.

(** CRLF pairs become LF. *)
Fixpoint universal_newlines (s : string) : string :=
  match s with
  | String c1 (String c2 rest as tail) =>
      if Ascii.eqb c1 CR && Ascii.eqb c2 LF
      then String LF (universal_newlines rest)
      else String c1 (universal_newlines tail)
  | _ => s
  end.

(** The line ending of the first line. *)
Fixpoint first_newline (s : string) : string :=
  match s with
  | String c1 (String c2 _ as tail) =>
      if Ascii.eqb c1 CR && Ascii.eqb c2 LF then String CR (String LF EmptyString)
      else if Ascii.eqb c1 LF then String LF EmptyString
      else first_newline tail
  | _ => String LF EmptyString
  end.

(** LF becomes the file's line ending. *)
Fixpoint translate_newlines (newline s : string) : string :=
  match s with
  | String c rest =>
      if Ascii.eqb c LF then newline +:+ translate_newlines newline rest
      else String c (translate_newlines newline rest)
  | EmptyString => EmptyString
  end.

(** Single quotes become double quotes. *)
Fixpoint normalize_quotes (s : string) : string :=
  match s with
  | String c rest =>
      String (if Ascii.eqb c QUOTE then DQUOTE else c)
             (normalize_quotes rest)
  | EmptyString => EmptyString
  end.

Definition builtins : Builtins := {|
  object_str v :=
    match v with
    | VBool true => "True"
    | VBool false => "False"
    | _ => "<object>"
    end;
  locale_decode b := Return (decode b);
  text_encode encoding newline text :=
    if bool_decide (encoding ∈ ["utf-8"; "latin-1"])
    then Return (encode (translate_newlines newline text))
    else Raise (Raised "LookupError");
|}.

Definition trailrunner : Trailrunner := {|
  project_root _ p := take 1 p;
|}.

(** Canned documents, by their text. *)
Definition ufmt_table (d : gmap string value) : gmap string value :=
  {[ "tool" := VDict {[ "ufmt" := VDict d ]} ]}.

Definition excludes_list : gmap string value :=
  {[ "excludes" := VList [VStr "a.py"; VStr "b.py"] ]}.
Definition excludes_string : gmap string value :=
  {[ "excludes" := VStr "a.py" ]}.
Definition excludes_and_more : gmap string value :=
  <["excludes" := VList [VStr "a.py"]]>
    (<["foo" := VInt 1]> {[ "bar" := VInt 2 ]}).
Definition skip_normalization : gmap string value :=
  {[ "skip_string_normalization" := VBool true; "color" := VBool true ]}.
Definition line_length : gmap string value :=
  {[ "line_length" := VInt 100 ]}.

Definition documents : list (string * gmap string value) := [
  ("excludes = ['a.py', 'b.py']", ufmt_table excludes_list);
  ("excludes = 'a.py'", ufmt_table excludes_string);
  ("excludes = ['a.py'], foo = 1, bar = 2", ufmt_table excludes_and_more);
  ("skip-string-normalization = true", skip_normalization);
  ("line-length = 100", line_length)
].

Definition canned (text : string) : outcome (gmap string value) :=
  match list_find (λ doc, doc.1 = text) documents with
  | Some (_, doc) => Return doc.2
  | None => Raise (Raised "ParseError")
  end.

Definition tomlkit : Tomlkit := {| tomlkit_loads := canned |}.

Definition Mode : Type := gmap string value.

Definition black : Black Mode := {|
  decode_bytes b :=
    let text := decode b in
    Return (universal_newlines text, "utf-8", first_newline text);
  format_file_contents src fast mode :=
    let dst :=
      match mode !! "string_normalization" with
      | Some v => if truthy v then normalize_quotes src else src
      | None => normalize_quotes src
      end in
    if bool_decide (dst = src) then Raise NothingChanged else Return dst;
  find_pyproject_toml fs srcs :=
    if bool_decide (is_Some (fs !! ["proj"; "pyproject.toml"]))
    then Some "/proj/pyproject.toml" else None;
  parse_pyproject_toml fs config_file :=
    match fs !! ["proj"; "pyproject.toml"] with
    | Some b => canned (decode b)
    | None => Raise (FileNotFoundError ["proj"; "pyproject.toml"])
    end;
  Mode_fields := ["target_versions"; "line_length"; "string_normalization";
                  "is_pyi"; "magic_trailing_comma";
                  "experimental_string_processing"];
  Mode_new kwargs := kwargs;
|}.

(** The same, but text that needs no change is returned as it is. *)
Definition black_quiet : Black Mode := {|
  decode_bytes := @decode_bytes _ black;
  format_file_contents src fast mode :=
    match @format_file_contents _ black src fast mode with
    | Raise NothingChanged => Return src
    | r => r
    end;
  find_pyproject_toml := @find_pyproject_toml _ black;
  parse_pyproject_toml := @parse_pyproject_toml _ black;
  Mode_fields := @Mode_fields _ black;
  Mode_new := @Mode_new _ black;
|}.

Definition usort : Usort unit := {|
  UsortConfig_find _ _ := Return ();
  usort_string content _ _ := Return content;
|}.

Definition moreorless : Moreorless := {|
  unified_diff a b label := "--- " +:+ label +:+ " -" +:+ a +:+ " +" +:+ b;
|}.

Definition config (path : option Path) : Py UfmtConfig.t :=
  @ufmt_config builtins trailrunner tomlkit path.

Definition file (path : Path) (dry_run diff : bool) : Py Result.t :=
  @ufmt_file Mode unit builtins black usort moreorless path dry_run diff.

Definition black_config (path : Path) : Py Mode :=
  @_make_black_config Mode black path.

Definition world (fs : list (Path * string)) : World :=
  mkWorld (list_to_map (prod_map id encode <$> fs)) ["home"] [].

(** Inputs: a file below [/proj], with or without a [pyproject.toml]
    beside it. *)
Definition start : Path := ["proj"; "a.py"].
Definition pyproject : Path := ["proj"; "pyproject.toml"].

Definition CRLF : string := String CR (String LF EmptyString).
(* x = 'a' and x = "a", each with a CRLF line ending *)
Definition single_quoted : string :=
  "x = " +:+ String QUOTE ("a" +:+ String QUOTE CRLF).
Definition double_quoted : string :=
  "x = " +:+ String DQUOTE ("a" +:+ String DQUOTE CRLF).
(* the same lines as Python text, ending in LF *)
Definition single_quoted_text : string :=
  "x = " +:+ String QUOTE ("a" +:+ String QUOTE (String LF EmptyString)).
Definition double_quoted_text : string :=
  "x = " +:+ String DQUOTE ("a" +:+ String DQUOTE (String LF EmptyString)).

Definition bare : World := world [].
Definition with_single_quotes : World := world [(start, single_quoted)].
Definition with_double_quotes : World := world [(start, double_quoted)].
Definition with_pyproject (text : string) : World :=
  world [(start, single_quoted); (pyproject, text)].
End Demo.

(** Further documents and collaborators, for the edge cases of the two
    modules. *)

Module Edge.
Definition tool_is_number : gmap string value := {[ "tool" := VInt 1 ]}.
Definition ufmt_is_string : gmap string value :=
  {[ "tool" := VDict {[ "ufmt" := VStr "x" ]} ]}.

Definition documents : list (string * gmap string value) :=
  ("tool = 1", tool_is_number) :: ("ufmt = 'x'", ufmt_is_string)
    :: Demo.documents.

Definition tomlkit : Tomlkit := {|
  tomlkit_loads text :=
    match list_find (λ doc, doc.1 = text) documents with
    | Some (_, doc) => Return doc.2
    | None => Raise (Raised "ParseError")
    end;
|}.

Definition config (path : option Path) : Py UfmtConfig.t :=
  @ufmt_config Demo.builtins Demo.trailrunner tomlkit path.

Definition target_version_string : gmap string value :=
  {[ "target_version" := VStr "py38" ]}.
Definition target_version_number : gmap string value :=
  {[ "target_version" := VInt 38 ]}.

(** [Demo.black], reading a configuration that sets the target version
    to a number. *)
Definition black_bad_target : Black Demo.Mode := {|
  decode_bytes := @decode_bytes _ Demo.black;
  format_file_contents := @format_file_contents _ Demo.black;
  find_pyproject_toml := @find_pyproject_toml _ Demo.black;
  parse_pyproject_toml fs config_file :=
    match fs !! Demo.pyproject with
    | Some _ => Return target_version_number
    | None => Raise (FileNotFoundError Demo.pyproject)
    end;
  Mode_fields := @Mode_fields _ Demo.black;
  Mode_new := @Mode_new _ Demo.black;
|}.

(** [Demo.black], but the bytes are said to be in an encoding that
    [Demo.builtins] cannot write. *)
Definition black_cp1252 : Black Demo.Mode := {|
  decode_bytes b :=
    let text := Demo.decode b in
    Return (Demo.universal_newlines text, "cp1252", Demo.first_newline text);
  format_file_contents := @format_file_contents _ Demo.black;
  find_pyproject_toml := @find_pyproject_toml _ Demo.black;
  parse_pyproject_toml := @parse_pyproject_toml _ Demo.black;
  Mode_fields := @Mode_fields _ Demo.black;
  Mode_new := @Mode_new _ Demo.black;
|}.
End Edge.

(** ** Tactics

    [py_unfold] opens the monad and the world operations; [by_compute] and
    [by_decide] settle a closed equation or a closed decidable proposition
    by evaluation. *)

Ltac py_unfold :=
  repeat progress
    unfold mbind, mret, Py_bind, Py_ret, outcome_bind, outcome_ret,
      lift, raise, gets, emit, set_files, LOG_warning, LOG_debug,
      read_text, read_bytes, is_file, Path_cwd in *.

Ltac by_compute := vm_compute; reflexivity.
Ltac by_decide := apply (bool_decide_unpack _); vm_compute; exact I.

(** The files and the directory are the same, and the log has grown by
    nothing or by one warning. *)
Ltac log_grows :=
  split; [done|split; [done|]];
  first
    [ exists []; split; [by rewrite app_nil_r|]; split; [simpl; lia|constructor]
    | eexists [_]; split; [reflexivity|]; split;
        [simpl; lia|by repeat constructor] ].

(** * Properties *)

(** ** The order [sorted] uses *)

Lemma str_le_compare a b : str_le a b ↔ String.compare a b ≠ Gt.
Proof.
  unfold str_le, String.leb. destruct (String.compare a b); naive_solver.
Qed.

Lemma str_le_lt_or_eq a b : str_le a b ↔ String.compare a b = Lt ∨ a = b.
Proof.
  rewrite str_le_compare.
  pose proof (OrdersEx.String_as_OT.compare_spec a b) as S.
  change OrdersEx.String_as_OT.compare with String.compare in S.
  inversion S as [E Hc|L Hc|G Hc]; unfold OrdersEx.String_as_OT.eq in *.
  - naive_solver.
  - naive_solver.
  - split; [done|]. intros [?| ->]; [congruence|].
    by destruct (irreflexivity OrdersEx.String_as_OT.lt b).
Qed.

#[global] Instance str_le_total : Total str_le.
Proof. intros a b. apply String.leb_total. Qed.

#[global] Instance str_le_trans : Transitive str_le.
Proof.
  intros a b c [Lab| ->]%str_le_lt_or_eq [Lbc| ->]%str_le_lt_or_eq;
    apply str_le_lt_or_eq; auto.
  left. exact (transitivity (R := OrdersEx.String_as_OT.lt) Lab Lbc).
Qed.

Lemma sorted_spec (l : list string) :
  StronglySorted str_le (sorted l) ∧ sorted l ≡ₚ l.
Proof.
  split.
  - apply (StronglySorted_merge_sort str_le); apply _.
  - apply merge_sort_Permutation.
Qed.

Lemma elem_of_keys (d : gmap string value) (k : string) :
  k ∈ keys d ↔ is_Some (d !! k).
Proof.
  unfold keys. rewrite list_elem_of_fmap. split.
  - intros [[k' v] [-> Hin]]. apply elem_of_map_to_list in Hin. by exists v.
  - intros [v Hv]. exists (k, v). split; [done|]. by apply elem_of_map_to_list.
Qed.

(** ** ufmt_config *)

Section config_facts.
Context `{Builtins, Trailrunner, Tomlkit}.

(** The run of [ufmt_config] once the file is there, read and parsed. *)
Lemma ufmt_config_parsed path w buf text pyproject config :
  let root := project_root (files w) (default (cwd w) path) in
  let config_path := truediv root "pyproject.toml" in
  files w !! config_path = Some buf →
  locale_decode buf = Return text →
  tomlkit_loads text = Return pyproject →
  tool_ufmt pyproject = Return config →
  ufmt_config path w =
    (config ← match config with
             | VDict d => mret d
             | _ =>
                 LOG_warning "%s: tool.ufmt is not a mapping, ignoring"
                   [ArgPath config_path];;
                 mret ∅
             end;
    let config_excludes := pop "excludes" (VList []) config in
    let config := delete "excludes" config in
    excludes ←
      (if is_Sequence config_excludes && negb (is_str config_excludes) then
         l ← lift (iter config_excludes);
         mret (str <$> l)
       else
         raise (ValueError
                  (path_str config_path +:+ ": excludes must be a list of strings")));
    (if bool_decide (config ≠ ∅) then
       LOG_warning "%s: unknown values ignored: %r"
         [ArgPath config_path; ArgNames (sorted (keys config))]
     else mret ());;
    mret (UfmtConfig.mk (Some root) (Some config_path) excludes)) w.
Proof.
  cbv zeta. intros Hfile Hdec Hload Hcfg.
  unfold ufmt_config. py_unfold.
  repeat (rewrite ?Hfile, ?Hdec, ?Hload, ?Hcfg; simpl). done.
Qed.
(** What is returned or raised in that case, as a function of the
    [tool.ufmt] mapping alone. *)
Lemma ufmt_config_result path w buf text pyproject config :
  let root := project_root (files w) (default (cwd w) path) in
  let config_path := truediv root "pyproject.toml" in
  let mapping := match config with VDict d => d | _ => ∅ end in
  let config_excludes := pop "excludes" (VList []) mapping in
  files w !! config_path = Some buf →
  locale_decode buf = Return text →
  tomlkit_loads text = Return pyproject →
  tool_ufmt pyproject = Return config →
  (ufmt_config path w).1 =
    if is_Sequence config_excludes && negb (is_str config_excludes) then
      l ← iter config_excludes;
      Return (UfmtConfig.mk (Some root) (Some config_path) (str <$> l))
    else
      Raise (ValueError
               (path_str config_path +:+ ": excludes must be a list of strings")).
Proof.
  cbv zeta. intros Hfile Hdec Hload Hcfg.
  rewrite (ufmt_config_parsed _ _ _ _ _ _ Hfile Hdec Hload Hcfg).
  py_unfold.
  destruct config; simpl;
    repeat match goal with
           | |- context [if ?b then _ else _] => destruct b; simpl
           | |- context [match iter ?v with _ => _ end] =>
               destruct (iter v); simpl
           end; done.
Qed.

(** C2, as the code has it: with no [pyproject.toml] under the computed
    root, [ufmt_config] returns the all-default [UfmtConfig()], whose
    project root is absent, whose configuration path is absent and whose
    excludes are empty; nothing is logged or written. *)
Theorem ufmt_config_no_pyproject (path : option Path) (w : World) :
  files w !! truediv (project_root (files w) (default (cwd w) path))
               "pyproject.toml" = None →
  ufmt_config path w = (Return (UfmtConfig.mk None None []), w).
Proof.
  intros Hnone. unfold ufmt_config. py_unfold. by rewrite Hnone.
Qed.

(** C3: once the configuration file is read and parsed, [ufmt_config]
    raises if and only if the [tool.ufmt] mapping has an [excludes] entry
    that is a string or not a sequence; what it raises is then the
    [ValueError] whose message starts with the path of the file.  For a
    sequence that is not a string it returns the elements, each through
    [str]; with no [excludes] entry it returns the empty list. *)
Theorem ufmt_config_excludes path w buf text pyproject config :
  let root := project_root (files w) (default (cwd w) path) in
  let config_path := truediv root "pyproject.toml" in
  let mapping := match config with VDict d => d | _ => ∅ end in
  files w !! config_path = Some buf →
  locale_decode buf = Return text →
  tomlkit_loads text = Return pyproject →
  tool_ufmt pyproject = Return config →
  let result := (ufmt_config path w).1 in
  ((∃ e, result = Raise e) ↔
     ∃ v, mapping !! "excludes" = Some v ∧
          (is_str v = true ∨ is_Sequence v = false))
  ∧ (∀ e, result = Raise e →
       e = ValueError
             (path_str config_path +:+ ": excludes must be a list of strings"))
  ∧ (∀ v, mapping !! "excludes" = Some v →
       is_Sequence v = true → is_str v = false →
       ∃ l, (v = VList l ∨ v = VTuple l) ∧
            result =
              Return (UfmtConfig.mk (Some root) (Some config_path) (str <$> l)))
  ∧ (mapping !! "excludes" = None →
       result = Return (UfmtConfig.mk (Some root) (Some config_path) [])).
Proof.
  cbv zeta. intros Hfile Hdec Hload Hcfg.
  rewrite (ufmt_config_result _ _ _ _ _ _ Hfile Hdec Hload Hcfg).
  unfold pop.
  destruct (_ !! "excludes") as [v|] eqn:Hex; simpl.
  - destruct v; simpl; repeat split;
      try (intros; discriminate); try (intros [? ?]; discriminate);
      try (intros; simplify_eq; eauto; fail);
      try (intros _; eexists; split; [done|]; simpl; eauto; fail);
      try (intros [? [? [?|?]]]; simplify_eq; fail).
  - repeat split; try (intros; discriminate); try (intros [? ?]; discriminate);
      try done.
    intros [? [? ?]]; discriminate.
Qed.

(** C9: a [tool.ufmt] mapping with a list under [excludes] and other keys
    besides makes [ufmt_config] return, with the elements of the list
    (each through [str]) as excludes and one warning added to the log,
    whose second argument is the other keys in sorted order; no file
    changes. *)
Theorem ufmt_config_unknown_keys path w buf text pyproject d l :
  let root := project_root (files w) (default (cwd w) path) in
  let config_path := truediv root "pyproject.toml" in
  let unknown := sorted (keys (delete "excludes" d)) in
  files w !! config_path = Some buf →
  locale_decode buf = Return text →
  tomlkit_loads text = Return pyproject →
  tool_ufmt pyproject = Return (VDict d) →
  d !! "excludes" = Some (VList l) →
  delete "excludes" d ≠ ∅ →
  ufmt_config path w =
    (Return (UfmtConfig.mk (Some root) (Some config_path) (str <$> l)),
     mkWorld (files w) (cwd w)
       (log w ++ [mkLog WARNING "%s: unknown values ignored: %r"
                    [ArgPath config_path; ArgNames unknown]]))
  ∧ StronglySorted str_le unknown
  ∧ unknown ≡ₚ keys (delete "excludes" d)
  ∧ (∀ k, k ∈ unknown ↔ k ≠ "excludes" ∧ is_Some (d !! k)).
Proof.
  cbv zeta. intros Hfile Hdec Hload Hcfg Hex Hother.
  rewrite (ufmt_config_parsed _ _ _ _ _ _ Hfile Hdec Hload Hcfg).
  destruct (sorted_spec (keys (delete "excludes" d))) as [Hsorted Hperm].
  split; [|split; [done|split; [done|]]].
  - py_unfold. unfold pop. rewrite Hex. simpl.
    by rewrite bool_decide_eq_true_2.
  - intros k. rewrite Hperm, elem_of_keys. unfold is_Some.
    setoid_rewrite lookup_delete_Some.
    split; [intros [v [? ?]]|intros [? [v ?]]]; eauto.
Qed.
End config_facts.

(** ** ufmt_string and _make_black_config *)

(** C8: when the style transformation raises [NothingChanged] on the text
    the sort transformation produced, [ufmt_string] returns that text; and
    it returns the same as with a style transformation that returns its
    input as it is. *)
Theorem ufmt_string_nothing_changed {Mode UsortConfig : Type}
    `{U : Usort UsortConfig} (B B' : Black Mode)
    (path : Path) (content : string) (usort_config : UsortConfig)
    (black_config : option Mode) (sorted_content : string) :
  usort_string content usort_config path = Return sorted_content →
  @format_file_contents _ B sorted_content false
     (default (@Mode_default _ B) black_config) = Raise NothingChanged →
  @format_file_contents _ B' sorted_content false
     (default (@Mode_default _ B') black_config) = Return sorted_content →
  @ufmt_string _ _ B U path content usort_config black_config
    = Return sorted_content ∧
  @ufmt_string _ _ B U path content usort_config black_config
    = @ufmt_string _ _ B' U path content usort_config black_config.
Proof.
  intros Hsort Hnothing Hsame. unfold ufmt_string.
  rewrite Hsort. simpl. by rewrite Hnothing, Hsame.
Qed.

Section black_facts.
Context {Mode : Type} `{Black Mode}.

Lemma black_kwargs_patched config kwargs :
  black_kwargs config = Return kwargs →
  ∃ target_versions,
    py_set (pop "target_version" (VList []) config) = Return target_versions ∧
    kwargs = filter (λ item, item.1 ∈ Mode_fields) (patched target_versions config).
Proof.
  unfold black_kwargs. destruct (py_set _) as [tv|]; simpl; [|done].
  intros [= <-]. by exists tv.
Qed.

Lemma black_kwargs_lookup config kwargs k v :
  black_kwargs config = Return kwargs →
  kwargs !! k = Some v ↔
    k ∈ Mode_fields ∧
    ∃ target_versions,
      py_set (pop "target_version" (VList []) config) = Return target_versions ∧
      patched target_versions config !! k = Some v.
Proof.
  intros (tv & Hset & ->)%black_kwargs_patched.
  rewrite map_lookup_filter_Some. simpl. split.
  - intros [? ?]. eauto.
  - intros [? (tv' & Hset' & ?)]. rewrite Hset in Hset'.
    by injection Hset' as <-.
Qed.

(** The value under each of the two flags is a tuple of one boolean, the
    negation of the truth value of the source key. *)
Lemma black_kwargs_flags config kwargs :
  "string_normalization" ∈ Mode_fields →
  "magic_trailing_comma" ∈ Mode_fields →
  black_kwargs config = Return kwargs →
  kwargs !! "string_normalization" =
    Some (VTuple [VBool (negb (truthy
            (pop "skip_string_normalization" (VBool false) config)))]) ∧
  kwargs !! "magic_trailing_comma" =
    Some (VTuple [VBool (negb (truthy
            (pop "skip_magic_trailing_comma" (VBool false) config)))]).
Proof.
  intros Hs Hm Hk.
  destruct (black_kwargs_patched _ _ Hk) as (tv & Hset & ->).
  split; apply map_lookup_filter_Some; (split; [|done]);
    unfold patched, pop; by simplify_map_eq.
Qed.

(** C10: when a configuration file is found and parsed, the mapping
    [_make_black_config] gives to the [Mode] constructor has the three
    patched keys (given that they are fields of [Mode]) and only fields of
    [Mode]; it exists whenever [target_version] is not set, and then has
    the empty set under [target_versions]. *)
Theorem black_kwargs_keys path w config_file config :
  "target_versions" ∈ Mode_fields →
  "string_normalization" ∈ Mode_fields →
  "magic_trailing_comma" ∈ Mode_fields →
  find_pyproject_toml (files w) [path_str path] = Some config_file →
  config_file ≠ EmptyString →
  parse_pyproject_toml (files w) config_file = Return config →
  (∀ kwargs, black_kwargs config = Return kwargs →
     _make_black_config path w = (Return (Mode_new kwargs), w) ∧
     is_Some (kwargs !! "target_versions") ∧
     is_Some (kwargs !! "string_normalization") ∧
     is_Some (kwargs !! "magic_trailing_comma") ∧
     (∀ k, is_Some (kwargs !! k) → k ∈ Mode_fields)) ∧
  (config !! "target_version" = None →
     ∃ kwargs, black_kwargs config = Return kwargs ∧
               kwargs !! "target_versions" = Some (VSet [])).
Proof.
  intros Ht Hs Hm Hfind Hne Hparse. split.
  - intros kwargs Hk. split; [|split; [|split; [|split]]].
    + unfold _make_black_config. py_unfold. rewrite Hfind.
      destruct config_file; [done|]. simpl. by rewrite Hparse, Hk.
    + destruct (black_kwargs_patched _ _ Hk) as (tv & Hset & ->).
      exists tv. apply map_lookup_filter_Some. split; [|done].
      unfold patched. by simplify_map_eq.
    + destruct (black_kwargs_flags _ _ Hs Hm Hk) as [-> _]. eauto.
    + destruct (black_kwargs_flags _ _ Hs Hm Hk) as [_ ->]. eauto.
    + intros k [v Hv]. by apply (black_kwargs_lookup _ _ _ _ Hk) in Hv as [? _].
  - intros Hnone. unfold black_kwargs, pop. rewrite Hnone. simpl.
    eexists. split; [done|].
    apply map_lookup_filter_Some. split; [|done]. by simplify_map_eq.
Qed.
End black_facts.

(** ** ufmt_file *)

Section core_facts.
Context {Mode UsortConfig : Type}.
Context `{Builtins, Black Mode, Usort UsortConfig, Moreorless}.

(** Looking the style options up reads files and nothing else. *)
Lemma _make_black_config_frame (path : Path) (w : World) :
  (_make_black_config path w).2 = w.
Proof.
  unfold _make_black_config. py_unfold.
  destruct (find_pyproject_toml _ _) as [[|c s]|]; simpl; try done.
  destruct (parse_pyproject_toml _ _); simpl; try done.
  destruct (black_kwargs _); done.
Qed.

(** The run of [ufmt_file] once both configurations are found, the file is
    read and decoded, and the two transformations have returned. *)
Lemma ufmt_file_run path dry_run diff w usort_config black_config buf
    src_contents encoding newline dst_contents :
  UsortConfig_find (files w) path = Return usort_config →
  (_make_black_config path w).1 = Return black_config →
  files w !! path = Some buf →
  decode_bytes buf = Return (src_contents, encoding, newline) →
  ufmt_string path src_contents usort_config (Some black_config)
    = Return dst_contents →
  ufmt_file path dry_run diff w =
    if bool_decide (src_contents ≠ dst_contents) then
      let d := if diff
               then Some (unified_diff src_contents dst_contents (as_posix path))
               else None in
      if dry_run then (Return (Result.mk path true false d), checking path w)
      else match text_encode encoding newline dst_contents with
           | Return b => (Return (Result.mk path true true d), formatted path b w)
           | Raise e => (Raise e, formatted path [] w)
           end
    else (Return (Result.mk path false false None), checking path w).
Proof.
  intros Hfind Hblack Hfile Hdec Hstr.
  pose proof (_make_black_config_frame path w) as Hframe.
  unfold ufmt_file, write_text. py_unfold.
  rewrite Hfind. simpl.
  destruct (_make_black_config path w) as [o w1]. simpl in *. subst o w1.
  simpl. rewrite Hfile. simpl. rewrite Hdec. simpl. rewrite Hstr. simpl.
  unfold checking, formatted.
  destruct (bool_decide (src_contents ≠ dst_contents)); [|done].
  destruct diff, dry_run; simpl; try done;
    destruct (text_encode _ _ _); simpl; by rewrite <- ?app_assoc.
Qed.

(** Whenever [ufmt_file] returns, those steps have all succeeded. *)
Lemma ufmt_file_returns path dry_run diff w r w' :
  ufmt_file path dry_run diff w = (Return r, w') →
  ∃ usort_config black_config buf src_contents encoding newline dst_contents,
    UsortConfig_find (files w) path = Return usort_config ∧
    (_make_black_config path w).1 = Return black_config ∧
    files w !! path = Some buf ∧
    decode_bytes buf = Return (src_contents, encoding, newline) ∧
    ufmt_string path src_contents usort_config (Some black_config)
      = Return dst_contents.
Proof.
  intros Hrun.
  pose proof (_make_black_config_frame path w) as Hframe.
  unfold ufmt_file in Hrun. py_unfold.
  destruct (UsortConfig_find (files w) path) as [uc|] eqn:Hfind;
    simpl in Hrun; [|done].
  destruct (_make_black_config path w) as [[bc|] w1] eqn:Hblack;
    simpl in *; [|done]. subst w1.
  destruct (files w !! path) as [buf|] eqn:Hfile; simpl in Hrun; [|done].
  destruct (decode_bytes buf) as [[[src enc] nl]|] eqn:Hdec;
    simpl in Hrun; [|done].
  destruct (ufmt_string path src uc (Some bc)) as [dst|] eqn:Hstr;
    simpl in Hrun; [|done].
  by exists uc, bc, buf, src, enc, nl, dst.
Qed.
(** C4: in every result [ufmt_file] returns, [written] implies
    [changed], and a dry run never has [written] set. *)
Theorem ufmt_file_written_changed path dry_run diff w r w' :
  ufmt_file path dry_run diff w = (Return r, w') →
  (Result.written r = true → Result.changed r = true) ∧
  (dry_run = true → Result.written r = false).
Proof.
  intros Hrun.
  destruct (ufmt_file_returns _ _ _ _ _ _ Hrun)
    as (uc & bc & buf & src & enc & nl & dst & Hf & Hb & Hfile & Hdec & Hstr).
  rewrite (ufmt_file_run _ dry_run diff _ _ _ _ _ _ _ _ Hf Hb Hfile Hdec Hstr)
    in Hrun.
  destruct (bool_decide (src ≠ dst)), dry_run; simpl in Hrun;
    try destruct (text_encode enc nl dst); simplify_eq; simpl; by split.
Qed.

(** C5: in every result [ufmt_file] returns, the diff is present if and
    only if a diff was asked for and [changed] is set. *)
Theorem ufmt_file_diff_iff path dry_run diff w r w' :
  ufmt_file path dry_run diff w = (Return r, w') →
  Result.diff r ≠ None ↔ diff = true ∧ Result.changed r = true.
Proof.
  intros Hrun.
  destruct (ufmt_file_returns _ _ _ _ _ _ Hrun)
    as (uc & bc & buf & src & enc & nl & dst & Hf & Hb & Hfile & Hdec & Hstr).
  rewrite (ufmt_file_run _ dry_run diff _ _ _ _ _ _ _ _ Hf Hb Hfile Hdec Hstr)
    in Hrun.
  destruct (bool_decide (src ≠ dst)), dry_run, diff; simpl in Hrun;
    try destruct (text_encode enc nl dst); simplify_eq; simpl;
    split; try done; try (by intros [? ?]).
Qed.

(** C6: when the two transformations give back the decoded text as it
    was, [ufmt_file] returns a result with [changed] and [written] unset
    and no diff, and the files of the world are what they were. *)
Theorem ufmt_file_unchanged path dry_run diff w usort_config black_config
    buf src_contents encoding newline :
  UsortConfig_find (files w) path = Return usort_config →
  (_make_black_config path w).1 = Return black_config →
  files w !! path = Some buf →
  decode_bytes buf = Return (src_contents, encoding, newline) →
  ufmt_string path src_contents usort_config (Some black_config)
    = Return src_contents →
  ∃ w', ufmt_file path dry_run diff w
          = (Return (Result.mk path false false None), w') ∧
        files w' = files w.
Proof.
  intros Hf Hb Hfile Hdec Hstr.
  rewrite (ufmt_file_run _ dry_run diff _ _ _ _ _ _ _ _ Hf Hb Hfile Hdec Hstr).
  rewrite bool_decide_eq_false_2 by (intros Hne; by apply Hne).
  by eexists.
Qed.

(** C7: when [ufmt_file] returns with [written] set, the file holds the
    transformed text encoded with the encoding and the newline that
    [decode_bytes] gave for the bytes read, and no other file changed. *)
Theorem ufmt_file_write_roundtrip path dry_run diff w r w' :
  ufmt_file path dry_run diff w = (Return r, w') →
  Result.written r = true →
  ∃ usort_config black_config buf src_contents encoding newline
    dst_contents b,
    UsortConfig_find (files w) path = Return usort_config ∧
    (_make_black_config path w).1 = Return black_config ∧
    files w !! path = Some buf ∧
    decode_bytes buf = Return (src_contents, encoding, newline) ∧
    ufmt_string path src_contents usort_config (Some black_config)
      = Return dst_contents ∧
    text_encode encoding newline dst_contents = Return b ∧
    files w' = <[path := b]> (files w).
Proof.
  intros Hrun Hwritten.
  destruct (ufmt_file_returns _ _ _ _ _ _ Hrun)
    as (uc & bc & buf & src & enc & nl & dst & Hf & Hb & Hfile & Hdec & Hstr).
  exists uc, bc, buf, src, enc, nl, dst.
  rewrite (ufmt_file_run _ dry_run diff _ _ _ _ _ _ _ _ Hf Hb Hfile Hdec Hstr)
    in Hrun.
  destruct (bool_decide (src ≠ dst)), dry_run; simpl in Hrun;
    try (simplify_eq; discriminate).
  destruct (text_encode enc nl dst) as [b|] eqn:Henc; simplify_eq.
  by exists b.
Qed.
End core_facts.

(** ** Runs on concrete inputs *)


(** C1: with [skip_string_normalization = true] in the configuration,
    the option [_make_black_config] builds under [string_normalization] is
    the one-element tuple holding [False]: not a boolean, and true as a
    condition, so the setting is not inverted into a false option. *)
Theorem skip_string_normalization_not_inverted :
  ∃ mode : gmap string value,
    (Demo.black_config Demo.start
       (Demo.with_pyproject "skip-string-normalization = true")).1
      = Return mode ∧
    mode !! "string_normalization" = Some (VTuple [VBool false]) ∧
    is_bool (VTuple [VBool false]) = false ∧
    truthy (VTuple [VBool false]) = true.
Proof.
  eexists. split; [by_compute|]. split; [by_compute|]. by split.
Qed.

(** C2 as stated fails: below [/proj] with no [pyproject.toml], the
    configuration returned does not hold the computed root. *)
Lemma ufmt_config_default_root_absent :
  files Demo.bare
    !! truediv (@project_root Demo.trailrunner (files Demo.bare) Demo.start)
         "pyproject.toml" = None ∧
  ∃ c, (Demo.config (Some Demo.start) Demo.bare).1 = Return c ∧
       UfmtConfig.project_root c
         ≠ Some (@project_root Demo.trailrunner (files Demo.bare) Demo.start).
Proof.
  split; [by_compute|]. eexists. split; [by_compute|]. discriminate.
Qed.

(** The default configuration, below [/proj] with no files at all. *)
Lemma ufmt_config_no_pyproject_witness :
  Demo.config (Some Demo.start) Demo.bare
    = (Return (UfmtConfig.mk None None []), Demo.bare).
Proof.
  apply (@ufmt_config_no_pyproject Demo.builtins Demo.trailrunner Demo.tomlkit
           (Some Demo.start) Demo.bare).
  by_compute.
Defined.

(** A string under [excludes] makes [ufmt_config] raise. *)
Lemma ufmt_config_excludes_witness :
  ∃ e, (Demo.config (Some Demo.start)
          (Demo.with_pyproject "excludes = 'a.py'")).1 = Raise e.
Proof.
  apply (@ufmt_config_excludes Demo.builtins Demo.trailrunner Demo.tomlkit
           (Some Demo.start) (Demo.with_pyproject "excludes = 'a.py'")
           (Demo.encode "excludes = 'a.py'") "excludes = 'a.py'"
           (Demo.ufmt_table Demo.excludes_string)
           (VDict Demo.excludes_string));
    try by_compute.
  exists (VStr "a.py"). split; [by_compute|]. by left.
Defined.

(** [foo] and [bar] beside a list of excludes: one warning, naming
    [bar] before [foo]. *)
Lemma ufmt_config_unknown_keys_witness :
  Demo.config (Some Demo.start)
    (Demo.with_pyproject "excludes = ['a.py'], foo = 1, bar = 2")
  = (Return (UfmtConfig.mk (Some ["proj"]) (Some Demo.pyproject) ["a.py"]),
     mkWorld
       (files (Demo.with_pyproject "excludes = ['a.py'], foo = 1, bar = 2"))
       ["home"]
       [mkLog WARNING "%s: unknown values ignored: %r"
          [ArgPath Demo.pyproject; ArgNames ["bar"; "foo"]]]).
Proof.
  pose proof
    (@ufmt_config_unknown_keys Demo.builtins Demo.trailrunner Demo.tomlkit
       (Some Demo.start)
       (Demo.with_pyproject "excludes = ['a.py'], foo = 1, bar = 2")
       (Demo.encode "excludes = ['a.py'], foo = 1, bar = 2")
       "excludes = ['a.py'], foo = 1, bar = 2"
       (Demo.ufmt_table Demo.excludes_and_more)
       Demo.excludes_and_more [VStr "a.py"]) as Hrun.
  destruct Hrun as [Hrun _];
    [by_compute | by_compute | by_compute | by_compute | by_compute
    | by_decide | ].
  unfold Demo.config. rewrite Hrun. by_compute.
Defined.

(** A file with single quotes and CRLF line endings is rewritten. *)
Lemma ufmt_file_written_changed_witness :
  (Result.written (Result.mk Demo.start true true None) = true →
   Result.changed (Result.mk Demo.start true true None) = true) ∧
  (false = true →
   Result.written (Result.mk Demo.start true true None) = false).
Proof.
  apply (@ufmt_file_written_changed _ _ Demo.builtins Demo.black Demo.usort
           Demo.moreorless Demo.start false false Demo.with_single_quotes
           (Result.mk Demo.start true true None)
           (formatted Demo.start (Demo.encode Demo.double_quoted)
              Demo.with_single_quotes)).
  by_compute.
Defined.

(** The same file in a dry run that asks for a diff. *)
Lemma ufmt_file_diff_iff_witness :
  Result.diff
    (Result.mk Demo.start true false
       (Some (@unified_diff Demo.moreorless Demo.single_quoted_text
                Demo.double_quoted_text (as_posix Demo.start)))) ≠ None
  ↔ true = true ∧
    Result.changed
      (Result.mk Demo.start true false
         (Some (@unified_diff Demo.moreorless Demo.single_quoted_text
                  Demo.double_quoted_text (as_posix Demo.start)))) = true.
Proof.
  apply (@ufmt_file_diff_iff _ _ Demo.builtins Demo.black Demo.usort
           Demo.moreorless Demo.start true true Demo.with_single_quotes _
           (checking Demo.start Demo.with_single_quotes)).
  by_compute.
Defined.

(** A file that is already in its final form stays as it is. *)
Lemma ufmt_file_unchanged_witness :
  ∃ w', Demo.file Demo.start false true Demo.with_double_quotes
          = (Return (Result.mk Demo.start false false None), w') ∧
        files w' = files Demo.with_double_quotes.
Proof.
  apply (@ufmt_file_unchanged _ _ Demo.builtins Demo.black Demo.usort
           Demo.moreorless Demo.start false true Demo.with_double_quotes
           () ∅ (Demo.encode Demo.double_quoted)
           Demo.double_quoted_text "utf-8" Demo.CRLF); by_compute.
Defined.

(** The rewritten file has its double quotes and keeps its CRLF. *)
Lemma ufmt_file_write_roundtrip_witness :
  ∃ (usort_config : unit) (black_config : Demo.Mode) buf src_contents
    encoding newline dst_contents b,
    @UsortConfig_find _ Demo.usort (files Demo.with_single_quotes) Demo.start
      = Return usort_config ∧
    (Demo.black_config Demo.start Demo.with_single_quotes).1
      = Return black_config ∧
    files Demo.with_single_quotes !! Demo.start = Some buf ∧
    @decode_bytes _ Demo.black buf
      = Return (src_contents, encoding, newline) ∧
    @ufmt_string _ _ Demo.black Demo.usort Demo.start src_contents
      usort_config (Some black_config) = Return dst_contents ∧
    @text_encode Demo.builtins encoding newline dst_contents = Return b ∧
    files (formatted Demo.start (Demo.encode Demo.double_quoted)
             Demo.with_single_quotes)
      = <[Demo.start := b]> (files Demo.with_single_quotes).
Proof.
  apply (@ufmt_file_write_roundtrip _ _ Demo.builtins Demo.black Demo.usort
           Demo.moreorless Demo.start false false Demo.with_single_quotes
           (Result.mk Demo.start true true None)
           (formatted Demo.start (Demo.encode Demo.double_quoted)
              Demo.with_single_quotes)); by_compute.
Defined.

(** Text in final form, with a style transformation that raises and with
    one that returns the text. *)
Lemma ufmt_string_nothing_changed_witness :
  @ufmt_string _ _ Demo.black Demo.usort Demo.start Demo.double_quoted_text
     () None = Return Demo.double_quoted_text ∧
  @ufmt_string _ _ Demo.black Demo.usort Demo.start Demo.double_quoted_text
     () None
    = @ufmt_string _ _ Demo.black_quiet Demo.usort Demo.start
        Demo.double_quoted_text () None.
Proof.
  apply (@ufmt_string_nothing_changed _ _ Demo.usort Demo.black
           Demo.black_quiet); by_compute.
Defined.

(** A configuration that sets the line length only. *)
Lemma black_kwargs_keys_witness :
  ∃ kwargs, @black_kwargs _ Demo.black Demo.line_length = Return kwargs ∧
            kwargs !! "target_versions" = Some (VSet []).
Proof.
  apply (@black_kwargs_keys _ Demo.black Demo.start
           (Demo.with_pyproject "line-length = 100") "/proj/pyproject.toml"
           Demo.line_length);
    try by_decide; by_compute.
Defined.

(** The list of section 8 of the specification: two file names under
    [excludes] come back as they are. *)
Example ufmt_config_two_excludes :
  (Demo.config (Some Demo.start)
     (Demo.with_pyproject "excludes = ['a.py', 'b.py']")).1
  = Return (UfmtConfig.mk (Some ["proj"]) (Some Demo.pyproject)
              ["a.py"; "b.py"]).
Proof. by_compute. Qed.

(** * Further properties of the two modules *)

(** ** ufmt_config: what it leaves alone, and its other branches *)

Section config_more.
Context `{Builtins, Trailrunner, Tomlkit}.

(** X1: Whatever it returns or raises, [ufmt_config] changes no file and not
    the working directory, and adds at most one record to the log, a
    warning. *)
Theorem ufmt_config_frame (path : option Path) (w : World) :
  files (ufmt_config path w).2 = files w ∧
  cwd (ufmt_config path w).2 = cwd w ∧
  ∃ l, log (ufmt_config path w).2 = log w ++ l ∧
       length l ≤ 1 ∧ Forall (λ r, levelname r = WARNING) l.
Proof.
  unfold ufmt_config. py_unfold.
  destruct (files w !! _) as [buf|] eqn:Hfile; simpl; [|log_grows].
  rewrite Hfile. simpl.
  destruct (locale_decode buf) as [text|]; simpl; [|log_grows].
  destruct (tomlkit_loads text) as [pyproject|]; simpl; [|log_grows].
  destruct (tool_ufmt pyproject) as [config|]; simpl; [|log_grows].
  destruct config; simpl; unfold pop;
    rewrite ?lookup_empty, ?delete_empty; simpl;
    rewrite ?bool_decide_eq_false_2 by (intros Hne; by apply Hne); simpl;
    repeat match goal with
           | |- context [if ?b then _ else _] => destruct b; simpl
           | |- context [match iter ?v with _ => _ end] =>
               destruct (iter v); simpl
           end;
    log_grows.
Qed.

(** X2: When [ufmt_config] raises, whatever the exception, it has logged
    nothing: in particular an invalid [excludes] is reported before, and
    instead of, the warning about unknown keys. *)
Theorem ufmt_config_raises_silently path w e :
  (ufmt_config path w).1 = Raise e → (ufmt_config path w).2 = w.
Proof.
  unfold ufmt_config. py_unfold.
  destruct (files w !! _) as [buf|] eqn:Hfile; simpl; [|done].
  rewrite Hfile. simpl.
  destruct (locale_decode buf) as [text|]; simpl; [|by destruct w].
  destruct (tomlkit_loads text) as [pyproject|]; simpl; [|by destruct w].
  destruct (tool_ufmt pyproject) as [config|]; simpl; [|by destruct w].
  destruct config; simpl; unfold pop;
    rewrite ?lookup_empty, ?delete_empty; simpl;
    rewrite ?bool_decide_eq_false_2 by (intros Hne; by apply Hne); simpl;
    repeat match goal with
           | |- context [if ?b then _ else _] => destruct b; simpl
           | |- context [match iter ?v with _ => _ end] =>
               destruct (iter v) eqn:?; simpl
           end;
    try done; try (by destruct w).
Qed.

(** X3: A [tool.ufmt] entry that is not a mapping is not an error: it is
    reported in one warning and then treated as empty, so the result has
    the root, the path of the file and no excludes. *)
Theorem ufmt_config_not_a_mapping path w buf text pyproject config :
  let root := project_root (files w) (default (cwd w) path) in
  let config_path := truediv root "pyproject.toml" in
  files w !! config_path = Some buf →
  locale_decode buf = Return text →
  tomlkit_loads text = Return pyproject →
  tool_ufmt pyproject = Return config →
  is_dict config = false →
  ufmt_config path w =
    (Return (UfmtConfig.mk (Some root) (Some config_path) []),
     mkWorld (files w) (cwd w)
       (log w ++ [mkLog WARNING "%s: tool.ufmt is not a mapping, ignoring"
                    [ArgPath config_path]])).
Proof.
  cbv zeta. intros Hfile Hdec Hload Hcfg Hnot.
  rewrite (ufmt_config_parsed _ _ _ _ _ _ Hfile Hdec Hload Hcfg).
  py_unfold. unfold pop.
  destruct config; try discriminate; simpl;
    rewrite lookup_empty, delete_empty; simpl;
    by rewrite bool_decide_eq_false_2 by (intros Hne; by apply Hne).
Qed.

(** X4: A [tool] entry that is not a mapping is an error, unlike the case
    above: the lookup of [ufmt] in it raises [AttributeError], which is not
    caught, and nothing is logged. *)
Theorem ufmt_config_tool_not_a_mapping path w buf text pyproject tool :
  let root := project_root (files w) (default (cwd w) path) in
  let config_path := truediv root "pyproject.toml" in
  files w !! config_path = Some buf →
  locale_decode buf = Return text →
  tomlkit_loads text = Return pyproject →
  pyproject !! "tool" = Some tool →
  is_dict tool = false →
  ufmt_config path w =
    (Raise (AttributeError "object has no attribute 'get'"), w).
Proof.
  cbv zeta. intros Hfile Hdec Hload Htool Hnot.
  unfold ufmt_config. py_unfold.
  repeat (rewrite ?Hfile, ?Hdec, ?Hload; simpl).
  unfold tool_ufmt, py_get. py_unfold. rewrite Htool. simpl.
  by destruct tool.
Qed.

(** X5: With no key but [excludes] in the [tool.ufmt] mapping, and a list
    there or nothing, [ufmt_config] returns without logging: the world is
    as it was. *)
Theorem ufmt_config_known_keys_only path w buf text pyproject d :
  let root := project_root (files w) (default (cwd w) path) in
  let config_path := truediv root "pyproject.toml" in
  files w !! config_path = Some buf →
  locale_decode buf = Return text →
  tomlkit_loads text = Return pyproject →
  tool_ufmt pyproject = Return (VDict d) →
  delete "excludes" d = ∅ →
  (d !! "excludes" = None ∨ ∃ l, d !! "excludes" = Some (VList l)) →
  ∃ excludes,
    ufmt_config path w =
      (Return (UfmtConfig.mk (Some root) (Some config_path) excludes), w).
Proof.
  cbv zeta. intros Hfile Hdec Hload Hcfg Hrest Hex.
  rewrite (ufmt_config_parsed _ _ _ _ _ _ Hfile Hdec Hload Hcfg).
  py_unfold. unfold pop. rewrite Hrest.
  rewrite bool_decide_eq_false_2 by (intros Hne; by apply Hne).
  destruct Hex as [->|[l ->]]; simpl; eexists; by destruct w.
Qed.

(** X6: Strings under [excludes] come back as they are, in the order of the
    list. *)
Theorem ufmt_config_excludes_strings path w buf text pyproject d names :
  let root := project_root (files w) (default (cwd w) path) in
  let config_path := truediv root "pyproject.toml" in
  files w !! config_path = Some buf →
  locale_decode buf = Return text →
  tomlkit_loads text = Return pyproject →
  tool_ufmt pyproject = Return (VDict d) →
  d !! "excludes" = Some (VList (VStr <$> names)) →
  (ufmt_config path w).1
    = Return (UfmtConfig.mk (Some root) (Some config_path) names).
Proof.
  cbv zeta. intros Hfile Hdec Hload Hcfg Hex.
  rewrite (ufmt_config_result _ _ _ _ _ _ Hfile Hdec Hload Hcfg).
  unfold pop. rewrite Hex. simpl. do 2 f_equal.
  rewrite <- list_fmap_compose. by rewrite list_fmap_id.
Qed.
End config_more.

(** A [pyproject.toml] whose [tool.ufmt] entry is a string. *)
Lemma ufmt_config_not_a_mapping_witness :
  Edge.config (Some Demo.start) (Demo.with_pyproject "ufmt = 'x'")
  = (Return (UfmtConfig.mk (Some ["proj"]) (Some Demo.pyproject) []),
     mkWorld (files (Demo.with_pyproject "ufmt = 'x'")) ["home"]
       [mkLog WARNING "%s: tool.ufmt is not a mapping, ignoring"
          [ArgPath Demo.pyproject]]).
Proof.
  unfold Edge.config.
  rewrite (@ufmt_config_not_a_mapping Demo.builtins Demo.trailrunner
             Edge.tomlkit (Some Demo.start) (Demo.with_pyproject "ufmt = 'x'")
             (Demo.encode "ufmt = 'x'") "ufmt = 'x'" Edge.ufmt_is_string
             (VStr "x")); by_compute.
Defined.

(** A [pyproject.toml] whose [tool] entry is a number. *)
Lemma ufmt_config_tool_not_a_mapping_witness :
  Edge.config (Some Demo.start) (Demo.with_pyproject "tool = 1")
  = (Raise (AttributeError "object has no attribute 'get'"),
     Demo.with_pyproject "tool = 1").
Proof.
  apply (@ufmt_config_tool_not_a_mapping Demo.builtins Demo.trailrunner
           Edge.tomlkit (Some Demo.start) (Demo.with_pyproject "tool = 1")
           (Demo.encode "tool = 1") "tool = 1" Edge.tool_is_number (VInt 1));
    by_compute.
Defined.

(** An invalid [excludes]: the exception, and the world as it was. *)
Lemma ufmt_config_raises_silently_witness :
  (Demo.config (Some Demo.start) (Demo.with_pyproject "excludes = 'a.py'")).2
  = Demo.with_pyproject "excludes = 'a.py'".
Proof.
  apply (@ufmt_config_raises_silently Demo.builtins Demo.trailrunner
           Demo.tomlkit (Some Demo.start)
           (Demo.with_pyproject "excludes = 'a.py'")
           (ValueError "/proj/pyproject.toml: excludes must be a list of strings")).
  by_compute.
Defined.

(** A mapping with [excludes] alone. *)
Lemma ufmt_config_known_keys_only_witness :
  ∃ excludes,
    Demo.config (Some Demo.start)
      (Demo.with_pyproject "excludes = ['a.py', 'b.py']")
    = (Return (UfmtConfig.mk (Some ["proj"]) (Some Demo.pyproject) excludes),
       Demo.with_pyproject "excludes = ['a.py', 'b.py']").
Proof.
  apply (@ufmt_config_known_keys_only Demo.builtins Demo.trailrunner
           Demo.tomlkit (Some Demo.start)
           (Demo.with_pyproject "excludes = ['a.py', 'b.py']")
           (Demo.encode "excludes = ['a.py', 'b.py']")
           "excludes = ['a.py', 'b.py']"
           (Demo.ufmt_table Demo.excludes_list) Demo.excludes_list);
    try by_compute.
  right. by eexists.
Defined.

Lemma ufmt_config_excludes_strings_witness :
  (Demo.config (Some Demo.start)
     (Demo.with_pyproject "excludes = ['a.py', 'b.py']")).1
  = Return (UfmtConfig.mk (Some ["proj"]) (Some Demo.pyproject)
              ["a.py"; "b.py"]).
Proof.
  apply (@ufmt_config_excludes_strings Demo.builtins Demo.trailrunner
           Demo.tomlkit (Some Demo.start)
           (Demo.with_pyproject "excludes = ['a.py', 'b.py']")
           (Demo.encode "excludes = ['a.py', 'b.py']")
           "excludes = ['a.py', 'b.py']"
           (Demo.ufmt_table Demo.excludes_list) Demo.excludes_list
           ["a.py"; "b.py"]); by_compute.
Defined.

(** ** The keyword mapping of _make_black_config *)

Section black_more.
Context {Mode : Type} `{Black Mode}.

(** X7: The three source keys never reach the [Mode] constructor, whether or
    not [Mode] has fields of those names: they are popped, not copied. *)
Theorem black_kwargs_drops_source_keys config kwargs :
  black_kwargs config = Return kwargs →
  kwargs !! "target_version" = None ∧
  kwargs !! "skip_string_normalization" = None ∧
  kwargs !! "skip_magic_trailing_comma" = None.
Proof.
  intros (tv & _ & ->)%black_kwargs_patched.
  repeat split; apply map_lookup_filter_None; left;
    unfold patched; by simplify_map_eq.
Qed.

(** X8: Every other key that names a field of [Mode] is handed over with the
    value the configuration gives it, and is absent if the configuration
    does not set it. *)
Theorem black_kwargs_keeps_fields config kwargs k :
  black_kwargs config = Return kwargs →
  k ∈ Mode_fields →
  k ∉ ["target_version"; "target_versions";
       "skip_string_normalization"; "string_normalization";
       "skip_magic_trailing_comma"; "magic_trailing_comma"] →
  kwargs !! k = config !! k.
Proof.
  intros (tv & _ & ->)%black_kwargs_patched Hfield Hother.
  rewrite !not_elem_of_cons in Hother.
  destruct Hother as (? & ? & ? & ? & ? & ? & _).
  assert (patched tv config !! k = config !! k) as Hsame
    by (unfold patched; by simplify_map_eq).
  destruct (config !! k) as [v|] eqn:Hk.
  - apply map_lookup_filter_Some. by split.
  - apply map_lookup_filter_None. by left.
Qed.

(** X9: Entries of the configuration under the three patched names have no
    effect: the assignments of lines 63 to 69 replace them. *)
Theorem black_kwargs_ignores_patched_keys config v :
  black_kwargs (<["target_versions" := v]> config) = black_kwargs config ∧
  black_kwargs (<["string_normalization" := v]> config) = black_kwargs config ∧
  black_kwargs (<["magic_trailing_comma" := v]> config) = black_kwargs config.
Proof.
  repeat split; unfold black_kwargs, pop;
    rewrite lookup_insert_ne by done;
    (destruct (py_set _) as [tv|]; simpl; [|done]);
    do 2 f_equal; apply map_eq; intros i;
    repeat match goal with
           | |- context [<[?k := _]> _ !! i] =>
               destruct (decide (k = i)) as [<-|];
               [ rewrite ?lookup_insert_eq, ?lookup_insert_ne by done
               | rewrite (lookup_insert_ne _ k i) by done ]
           | |- context [delete ?k _ !! i] =>
               destruct (decide (k = i)) as [<-|];
               [ rewrite ?lookup_delete_eq, ?lookup_delete_ne by done
               | rewrite (lookup_delete_ne _ k i) by done ]
           end;
    by simplify_map_eq.
Qed.

(** X10: A string under [target_version] is taken apart: [set] iterates over
    its characters, so the option holds the characters of the string, not
    the string. *)
Theorem black_kwargs_target_version_string config s :
  "target_versions" ∈ Mode_fields →
  config !! "target_version" = Some (VStr s) →
  ∃ kwargs, black_kwargs config = Return kwargs ∧
            kwargs !! "target_versions" = Some (VSet (chars s)).
Proof.
  intros Hfield Htv.
  assert (py_set (VStr s) = Return (VSet (chars s))) as Hset.
  { unfold py_set. simpl.
    assert (forallb hashable (chars s) = true) as ->; [|done].
    apply forallb_forall. intros v. unfold chars.
    rewrite <- list_elem_of_In, list_elem_of_fmap. by intros [c [-> _]]. }
  unfold black_kwargs, pop. rewrite Htv. simpl. rewrite Hset. simpl.
  eexists. split; [done|].
  apply map_lookup_filter_Some. split; [|done]. by simplify_map_eq.
Qed.
End black_more.

(** A configuration with a setting to drop and one that is no field of
    [Mode]. *)
Lemma black_kwargs_drops_source_keys_witness :
  ∃ kwargs,
    @black_kwargs _ Demo.black Demo.skip_normalization = Return kwargs ∧
    kwargs !! "target_version" = None ∧
    kwargs !! "skip_string_normalization" = None ∧
    kwargs !! "skip_magic_trailing_comma" = None.
Proof.
  eexists. split; [by_compute|].
  apply (@black_kwargs_drops_source_keys _ Demo.black Demo.skip_normalization).
  by_compute.
Defined.

(** The line length goes through as it is. *)
Lemma black_kwargs_keeps_fields_witness :
  ∃ kwargs,
    @black_kwargs _ Demo.black Demo.line_length = Return kwargs ∧
    kwargs !! "line_length" = Some (VInt 100).
Proof.
  eexists. split; [by_compute|].
  rewrite (@black_kwargs_keeps_fields _ Demo.black Demo.line_length _
             "line_length"); [by_compute | by_compute | by_decide | by_decide].
Defined.

(** [target_version = "py38"] gives the four characters. *)
Lemma black_kwargs_target_version_string_witness :
  ∃ kwargs,
    @black_kwargs _ Demo.black Edge.target_version_string = Return kwargs ∧
    kwargs !! "target_versions"
      = Some (VSet [VStr "p"; VStr "y"; VStr "3"; VStr "8"]).
Proof.
  apply (@black_kwargs_target_version_string _ Demo.black
           Edge.target_version_string "py38"); [by_decide | by_compute].
Defined.

(** ** ufmt_string: every outcome *)

Section string_more.
Context {Mode UsortConfig : Type} `{Black Mode, Usort UsortConfig}.

(** X11: [ufmt_string] returns the formatted text, or the sorted text when the
    style transformation raises [NothingChanged]; an exception of the sort
    transformation, and any other exception of the style transformation,
    is raised as it is. *)
Theorem ufmt_string_outcomes (path : Path) (content : string)
    (usort_config : UsortConfig) (black_config : option Mode) :
  let mode := default Mode_default black_config in
  (∀ result, ufmt_string path content usort_config black_config = Return result ↔
     ∃ sorted_content,
       usort_string content usort_config path = Return sorted_content ∧
       (format_file_contents sorted_content false mode = Return result ∨
        format_file_contents sorted_content false mode = Raise NothingChanged ∧
        result = sorted_content)) ∧
  (∀ e, ufmt_string path content usort_config black_config = Raise e ↔
     usort_string content usort_config path = Raise e ∨
     ∃ sorted_content,
       usort_string content usort_config path = Return sorted_content ∧
       format_file_contents sorted_content false mode = Raise e ∧
       e ≠ NothingChanged).
Proof.
  cbv zeta. unfold ufmt_string.
  destruct (usort_string content usort_config path) as [c|e0]; simpl.
  - destruct (format_file_contents c false _) as [d|e1] eqn:Hfmt.
    + split; [intros result|intros e]; split.
      * intros [= <-]. exists c. eauto.
      * intros (c' & [= <-] & [Hr|[Hr _]]); rewrite Hfmt in Hr; by simplify_eq.
      * done.
      * intros [?|(c' & [= <-] & Hr & _)]; [done|].
        rewrite Hfmt in Hr. done.
    + split; [intros result|intros e]; split.
      * destruct e1; try done. intros [= <-]. exists c. eauto.
      * intros (c' & [= <-] & [Hr|[Hr ->]]); rewrite Hfmt in Hr;
          by simplify_eq.
      * destruct e1; try done; intros [= <-]; right; exists c;
          by repeat split.
      * intros [?|(c' & [= <-] & Hr & Hne)]; [done|].
        rewrite Hfmt in Hr. injection Hr as ->. by destruct e.
  - split; [intros result|intros e]; split.
    + done.
    + by intros (c' & ? & _).
    + intros [= <-]. by left.
    + intros [[= <-]|(c' & ? & _)]; done.
Qed.
End string_more.

(** ** ufmt_file: its effects and its failures *)

Section core_more.
Context {Mode UsortConfig : Type}.
Context `{Builtins, Black Mode, Usort UsortConfig, Moreorless}.

(** X12: Whatever it returns or raises, [ufmt_file] leaves every file but the
    one it is given as it was, and does not change the working
    directory. *)
Theorem ufmt_file_touches_one_file path dry_run diff w :
  delete path (files (ufmt_file path dry_run diff w).2) = delete path (files w) ∧
  cwd (ufmt_file path dry_run diff w).2 = cwd w.
Proof.
  pose proof (_make_black_config_frame path w) as Hframe.
  unfold ufmt_file, write_text. py_unfold.
  destruct (UsortConfig_find (files w) path) as [uc|]; simpl; [|done].
  destruct (_make_black_config path w) as [[bc|] w1]; simpl in *; subst w1;
    [|done].
  destruct (files w !! path) as [buf|]; simpl; [|done].
  destruct (decode_bytes buf) as [[[src enc] nl]|]; simpl; [|done].
  destruct (ufmt_string path src uc (Some bc)) as [dst|]; simpl; [|done].
  destruct (bool_decide (src ≠ dst)); [|done].
  destruct diff, dry_run; simpl; try done;
    destruct (text_encode enc nl dst); simpl;
    by rewrite delete_insert_eq.
Qed.

(** X13: In a dry run no file changes at all, whatever is returned or raised. *)
Theorem ufmt_file_dry_run_writes_nothing path diff w :
  files (ufmt_file path true diff w).2 = files w.
Proof.
  pose proof (_make_black_config_frame path w) as Hframe.
  unfold ufmt_file, write_text. py_unfold.
  destruct (UsortConfig_find (files w) path) as [uc|]; simpl; [|done].
  destruct (_make_black_config path w) as [[bc|] w1]; simpl in *; subst w1;
    [|done].
  destruct (files w !! path) as [buf|]; simpl; [|done].
  destruct (decode_bytes buf) as [[[src enc] nl]|]; simpl; [|done].
  destruct (ufmt_string path src uc (Some bc)) as [dst|]; simpl; [|done].
  destruct (bool_decide (src ≠ dst)); [|done].
  by destruct diff.
Qed.

(** X14: The flags of a returned result say what happened: the path is the one
    given, [changed] is set exactly when the transformed text differs from
    the decoded one, and [written] exactly when it differs and the run is
    not a dry run. *)
Theorem ufmt_file_flags path dry_run diff w r w' :
  ufmt_file path dry_run diff w = (Return r, w') →
  ∃ usort_config black_config buf src_contents encoding newline dst_contents,
    UsortConfig_find (files w) path = Return usort_config ∧
    (_make_black_config path w).1 = Return black_config ∧
    files w !! path = Some buf ∧
    decode_bytes buf = Return (src_contents, encoding, newline) ∧
    ufmt_string path src_contents usort_config (Some black_config)
      = Return dst_contents ∧
    Result.path r = path ∧
    (Result.changed r = true ↔ src_contents ≠ dst_contents) ∧
    (Result.written r = true ↔ src_contents ≠ dst_contents ∧ dry_run = false).
Proof.
  intros Hrun.
  destruct (ufmt_file_returns _ _ _ _ _ _ Hrun)
    as (uc & bc & buf & src & enc & nl & dst & Hf & Hb & Hfile & Hdec & Hstr).
  exists uc, bc, buf, src, enc, nl, dst.
  rewrite (ufmt_file_run _ dry_run diff _ _ _ _ _ _ _ _ Hf Hb Hfile Hdec Hstr)
    in Hrun.
  do 5 (split; [done|]).
  destruct (decide (src ≠ dst)) as [Hne|Heq].
  - rewrite bool_decide_eq_true_2 in Hrun by done.
    destruct dry_run; simpl in Hrun;
      try destruct (text_encode enc nl dst); simplify_eq; simpl;
      repeat split; try done; by intros [_ ?].
  - rewrite bool_decide_eq_false_2 in Hrun by done.
    simplify_eq. simpl. repeat split; try done; by intros [? _].
Qed.

(** X15: When the text cannot be encoded, the exception is raised after the
    file has been opened for writing: the file is left empty. *)
Theorem ufmt_file_failed_write path diff w usort_config black_config buf
    src_contents encoding newline dst_contents e :
  UsortConfig_find (files w) path = Return usort_config →
  (_make_black_config path w).1 = Return black_config →
  files w !! path = Some buf →
  decode_bytes buf = Return (src_contents, encoding, newline) →
  ufmt_string path src_contents usort_config (Some black_config)
    = Return dst_contents →
  src_contents ≠ dst_contents →
  text_encode encoding newline dst_contents = Raise e →
  (ufmt_file path false diff w).1 = Raise e ∧
  files (ufmt_file path false diff w).2 !! path = Some [].
Proof.
  intros Hf Hb Hfile Hdec Hstr Hne Henc.
  rewrite (ufmt_file_run _ false diff _ _ _ _ _ _ _ _ Hf Hb Hfile Hdec Hstr).
  rewrite bool_decide_eq_true_2 by done. simpl. rewrite Henc. simpl.
  split; [done|]. apply lookup_insert_eq.
Qed.

(** X16: A path that is no file: both configurations are looked up and the
    check is logged before the file is opened, then [FileNotFoundError]
    is raised. *)
Theorem ufmt_file_missing path dry_run diff w usort_config black_config :
  UsortConfig_find (files w) path = Return usort_config →
  (_make_black_config path w).1 = Return black_config →
  files w !! path = None →
  ufmt_file path dry_run diff w
    = (Raise (FileNotFoundError path), checking path w).
Proof.
  intros Hf Hb Hfile.
  pose proof (_make_black_config_frame path w) as Hframe.
  unfold ufmt_file. py_unfold. rewrite Hf. simpl.
  destruct (_make_black_config path w) as [o w1]. simpl in *. subst o w1.
  simpl. by rewrite Hfile.
Qed.

(** X17: A [target_version] that [set] rejects stops [ufmt_file] before the
    file is opened: the exception is raised and the world is as it was. *)
Theorem ufmt_file_bad_target_version path dry_run diff w usort_config
    config_file config e :
  UsortConfig_find (files w) path = Return usort_config →
  find_pyproject_toml (files w) [path_str path] = Some config_file →
  config_file ≠ EmptyString →
  parse_pyproject_toml (files w) config_file = Return config →
  py_set (pop "target_version" (VList []) config) = Raise e →
  ufmt_file path dry_run diff w = (Raise e, w).
Proof.
  intros Hf Hfind Hne Hparse Hset.
  unfold ufmt_file, _make_black_config, black_kwargs. py_unfold.
  rewrite Hf. simpl. rewrite Hfind.
  destruct config_file; [done|]. simpl. by rewrite Hparse, Hset.
Qed.

(** X18: Running [ufmt_file] again on what it wrote changes nothing, provided
    the written bytes decode to the text they encode, the two
    transformations leave their own result alone, and the configurations
    found for the file are the same after the write. *)
Theorem ufmt_file_twice path diff dry_run' diff' w r usort_config black_config
    buf src_contents encoding newline dst_contents :
  let w1 := (ufmt_file path false diff w).2 in
  (ufmt_file path false diff w).1 = Return r →
  UsortConfig_find (files w) path = Return usort_config →
  (_make_black_config path w).1 = Return black_config →
  files w !! path = Some buf →
  decode_bytes buf = Return (src_contents, encoding, newline) →
  ufmt_string path src_contents usort_config (Some black_config)
    = Return dst_contents →
  (∀ b, text_encode encoding newline dst_contents = Return b →
        decode_bytes b = Return (dst_contents, encoding, newline)) →
  ufmt_string path dst_contents usort_config (Some black_config)
    = Return dst_contents →
  UsortConfig_find (files w1) path = Return usort_config →
  (_make_black_config path w1).1 = Return black_config →
  ∃ w2, ufmt_file path dry_run' diff' w1
          = (Return (Result.mk path false false None), w2) ∧
        files w2 = files w1.
Proof.
  cbv zeta. intros Hret Hf Hb Hfile Hdec Hstr Hround Hidem.
  rewrite (ufmt_file_run _ false diff _ _ _ _ _ _ _ _ Hf Hb Hfile Hdec Hstr)
    in Hret |- *.
  destruct (decide (src_contents ≠ dst_contents)) as [Hne|Heq].
  - rewrite bool_decide_eq_true_2 in Hret |- * by done. simpl in *.
    destruct (text_encode encoding newline dst_contents) as [b|] eqn:Henc;
      [|done].
    intros Hf1 Hb1.
    apply (ufmt_file_unchanged path dry_run' diff' (formatted path b w)
             usort_config black_config b dst_contents encoding newline);
      [done | done | apply lookup_insert_eq | by apply Hround | done].
  - rewrite bool_decide_eq_false_2 in Hret |- * by done.
    apply dec_stable in Heq. subst dst_contents.
    intros Hf1 Hb1.
    by apply (ufmt_file_unchanged path dry_run' diff' (checking path w)
                usort_config black_config buf src_contents encoding newline).
Qed.
End core_more.

(** The rewritten file of the earlier runs: changed and written. *)
Lemma ufmt_file_flags_witness :
  ∃ (usort_config : unit) (black_config : Demo.Mode) buf src_contents
    encoding newline dst_contents,
    @UsortConfig_find _ Demo.usort (files Demo.with_single_quotes) Demo.start
      = Return usort_config ∧
    (Demo.black_config Demo.start Demo.with_single_quotes).1
      = Return black_config ∧
    files Demo.with_single_quotes !! Demo.start = Some buf ∧
    @decode_bytes _ Demo.black buf
      = Return (src_contents, encoding, newline) ∧
    @ufmt_string _ _ Demo.black Demo.usort Demo.start src_contents
      usort_config (Some black_config) = Return dst_contents ∧
    Result.path (Result.mk Demo.start true true None) = Demo.start ∧
    (Result.changed (Result.mk Demo.start true true None) = true
       ↔ src_contents ≠ dst_contents) ∧
    (Result.written (Result.mk Demo.start true true None) = true
       ↔ src_contents ≠ dst_contents ∧ false = false).
Proof.
  apply (@ufmt_file_flags _ _ Demo.builtins Demo.black Demo.usort
           Demo.moreorless Demo.start false false Demo.with_single_quotes
           (Result.mk Demo.start true true None)
           (formatted Demo.start (Demo.encode Demo.double_quoted)
              Demo.with_single_quotes)); by_compute.
Defined.

(** The file is said to be in cp1252, which cannot be written: the run
    raises and the file is empty. *)
Lemma ufmt_file_failed_write_witness :
  (@ufmt_file _ _ Demo.builtins Edge.black_cp1252 Demo.usort Demo.moreorless
     Demo.start false false Demo.with_single_quotes).1
    = Raise (Raised "LookupError") ∧
  files (@ufmt_file _ _ Demo.builtins Edge.black_cp1252 Demo.usort
           Demo.moreorless Demo.start false false Demo.with_single_quotes).2
    !! Demo.start = Some [].
Proof.
  apply (@ufmt_file_failed_write _ _ Demo.builtins Edge.black_cp1252
           Demo.usort Demo.moreorless Demo.start false
           Demo.with_single_quotes () ∅ (Demo.encode Demo.single_quoted)
           Demo.single_quoted_text "cp1252" Demo.CRLF
           Demo.double_quoted_text (Raised "LookupError"));
    try by_compute.
  by_decide.
Defined.

(** No file at all below [/proj]. *)
Lemma ufmt_file_missing_witness :
  Demo.file Demo.start false false Demo.bare
  = (Raise (FileNotFoundError Demo.start), checking Demo.start Demo.bare).
Proof.
  apply (@ufmt_file_missing _ _ Demo.builtins Demo.black Demo.usort
           Demo.moreorless Demo.start false false Demo.bare () ∅);
    by_compute.
Defined.

(** [target_version = 38]: [set] cannot iterate over a number. *)
Lemma ufmt_file_bad_target_version_witness :
  @ufmt_file _ _ Demo.builtins Edge.black_bad_target Demo.usort
    Demo.moreorless Demo.start false false
    (Demo.with_pyproject "target-version = 38")
  = (Raise (TypeError "object is not iterable"),
     Demo.with_pyproject "target-version = 38").
Proof.
  apply (@ufmt_file_bad_target_version _ _ Demo.builtins Edge.black_bad_target
           Demo.usort Demo.moreorless Demo.start false false
           (Demo.with_pyproject "target-version = 38") ()
           "/proj/pyproject.toml" Edge.target_version_number);
    try by_compute.
  discriminate.
Defined.

(** The file with single quotes, formatted and then checked again. *)
Lemma ufmt_file_twice_witness :
  ∃ w2,
    Demo.file Demo.start true true
      (Demo.file Demo.start false false Demo.with_single_quotes).2
    = (Return (Result.mk Demo.start false false None), w2) ∧
    files w2
      = files (Demo.file Demo.start false false Demo.with_single_quotes).2.
Proof.
  apply (@ufmt_file_twice _ _ Demo.builtins Demo.black Demo.usort
           Demo.moreorless Demo.start false true true Demo.with_single_quotes
           (Result.mk Demo.start true true None) () ∅
           (Demo.encode Demo.single_quoted) Demo.single_quoted_text "utf-8"
           Demo.CRLF Demo.double_quoted_text);
    try by_compute.
  intros b Hb. vm_compute in Hb. injection Hb as <-. by_compute.
Defined.
